(** * util::Callback — a shallow embedding of [src/util/callback.h]

    The header defines one class template, [util::Callback<R(Args...)>], a
    pair of a [void *] context and a pointer to a function taking that
    context and the arguments, together with the helpers [util::Function]
    and [util::Bind] that build such pairs from a free function and from an
    object and one of its member functions.

    The embedding fixes one instantiation: a return type [R], an argument
    pack [Args] (as one type), and a class [T] whose objects may be bound.
    Pointers are addresses in [Z]; a program is the table of the functions
    that such pointers may lead to. *)

From stdpp Require Import base decidable option list gmap.

Module util.

(** ** Outcomes of running code *)

(** What a call may do: return a value, leave by an exception, or have no
    defined behaviour at all (a call through a null or dangling pointer). *)
Inductive Outcome (Exn S X : Type) : Type :=
| Returns (x : X) (s : S)
| Throws (e : Exn) (s : S)
| Undefined.
Arguments Returns {Exn S X} x s.
Arguments Throws {Exn S X} e s.
Arguments Undefined {Exn S X}.

(** The state an outcome ends in, when there is one. *)
Definition final_state {Exn S X} (o : Outcome Exn S X) : option S :=
  match o with
  | Returns _ s | Throws _ s => Some s
  | Undefined => None
  end.

(** The value an outcome returns, when it returns. *)
Definition returned {Exn S X} (o : Outcome Exn S X) : option X :=
  match o with
  | Returns x _ => Some x
  | Throws _ _ | Undefined => None
  end.

(** The exception an outcome leaves by, when it throws. *)
Definition thrown {Exn S X} (o : Outcome Exn S X) : option Exn :=
  match o with
  | Throws e _ => Some e
  | Returns _ _ | Undefined => None
  end.

(** The same outcome, seen through a change of state. *)
Definition map_state {Exn S S' X} (f : S -> S') (o : Outcome Exn S X)
  : Outcome Exn S' X :=
  match o with
  | Returns x s => Returns x (f s)
  | Throws e s => Throws e (f s)
  | Undefined => Undefined
  end.

(** Addresses; [nullptr] is address zero. *)
Abbreviation addr := Z (only parsing).
Definition nullptr : addr := 0%Z.

Section Signature.

(** The instantiation [R(Args...)], and [R{}]. *)
Variables R Args : Type.
Variable R_default : R.

(** The class [T] of bound objects, the rest of the program's state, and
    the exceptions the program may throw. *)
Variables T G Exn : Type.

(** Names of the non-const and of the const member functions of [T]
    that take [Args...] and return [R] (the template argument [F] of
    [util::Bind]), and of the program's other functions that take a
    [void *] and [Args...] and return [R]. *)
Variables MemFn ConstMemFn UserFn : Type.
Context `{!EqDecision MemFn, !EqDecision ConstMemFn, !EqDecision UserFn}.

(** *** Pointers *)

(** [using Context = void *] *)
Definition Context : Type := addr.

(** Pointer to a free function taking [Args...] and returning [R]. *)
Definition FunctionPtr : Type := addr.

(** [T *] and [const T *]; a reference [T &] is the address of its
    object. *)
Inductive Ptr : Type := ptr (a : addr).
Inductive ConstPtr : Type := const_ptr (a : addr).

Definition ptr_addr (p : Ptr) : addr := let 'ptr a := p in a.
Definition const_ptr_addr (p : ConstPtr) : addr := let 'const_ptr a := p in a.

(** The casts the header uses; each keeps the address. *)
Definition reinterpret_cast_void (function : FunctionPtr) : Context := function.
Definition reinterpret_cast_function (context : Context) : FunctionPtr := context.
Definition static_cast_void (p : Ptr) : Context := ptr_addr p.
Definition const_cast_T (p : ConstPtr) : Ptr := ptr (const_ptr_addr p).
Definition static_cast_T (context : Context) : Ptr := ptr context.
Definition static_cast_const_T (context : Context) : ConstPtr := const_ptr context.

(** [Functor], a pointer to a function taking a [Context] and [Args...]
    and returning [R]: it leads to one of the functions of that type the
    program contains, or is null.  The lambda in
    [util::Function] is one function per instantiation [R(Args...)]; the
    lambdas in the two [_BindHelper] overloads are one function per
    member [F]. Two pointers are equal when they lead to the same
    function. *)
Inductive Functor : Type :=
| Functor_null
| Functor_Function
| Functor_Bind (F : MemFn)
| Functor_Bind_const (F : ConstMemFn)
| Functor_user (u : UserFn).

#[export] Instance Functor_eq_dec : EqDecision Functor.
Proof. solve_decision. Defined.

(** *** The class *)

Record Callback : Type := Callback_new {
  context : Context;
  functor : Functor
}.

(** [Callback(Functor functor)] *)
Definition Callback_of_functor (functor : Functor) : Callback :=
  Callback_new nullptr functor.

(** [Callback() = default], from the member initialisers. *)
Definition Callback_default : Callback :=
  {| context := nullptr; functor := Functor_null |}.

(** [Callback(const Callback &other) = default] *)
Definition Callback_copy (other : Callback) : Callback :=
  {| context := context other; functor := functor other |}.

Definition IsSet (this : Callback) : bool :=
  negb (bool_decide (functor this = Functor_null)).

(** [explicit operator bool()] *)
Definition Callback_bool (this : Callback) : bool := IsSet this.

(** [operator==] *)
Definition Callback_eq (this other : Callback) : bool :=
  bool_decide (context this = context other)
  && bool_decide (functor this = functor other).

(** [operator!=] *)
Definition Callback_ne (this other : Callback) : bool :=
  negb (Callback_eq this other).

(** *** Programs and their state *)

Record World : Type := {
  objects : gmap addr T;
  globals : G
}.

(** A call entered, with what it was entered with. *)
Inductive Event : Type :=
| EvFunction (function : FunctionPtr) (args : Args)
| EvMember (F : MemFn) (this : addr) (args : Args)
| EvConstMember (F : ConstMemFn) (this : addr) (args : Args)
| EvUser (u : UserFn) (context : Context) (args : Args).

(** Callback variables live at addresses of their own; only the
    assignment operator and the constructors write them. *)
Record State : Type := {
  world : World;
  callbacks : gmap addr Callback;
  trace : list Event
}.

(** The code behind the pointers.  A member works on its own object and
    the globals; a const member cannot change its object. *)
Record Program : Type := {
  functions : FunctionPtr -> option (Args -> World -> Outcome Exn World R);
  members : MemFn -> Args -> T -> G -> Outcome Exn (T * G) R;
  const_members : ConstMemFn -> Args -> T -> G -> Outcome Exn G R;
  user_functors : UserFn -> Context -> Args -> World -> Outcome Exn World R
}.

Variable prog : Program.

(** Computations over the state. *)
Definition M (X : Type) : Type := State -> Outcome Exn State X.

Definition ret {X} (x : X) : M X := fun s => Returns x s.

Definition bind {X Y} (m : M X) (k : X -> M Y) : M Y := fun s =>
  match m s with
  | Returns x s' => k x s'
  | Throws e s' => Throws e s'
  | Undefined => Undefined
  end.

Notation "'let*' x ':=' m 'in' k" := (bind m (fun x => k))
  (at level 10, x name, m at level 100, k at level 200).

Definition set_world (w : World) (s : State) : State :=
  {| world := w; callbacks := callbacks s; trace := trace s |}.

Definition set_callbacks (m : gmap addr Callback) (s : State) : State :=
  {| world := world s; callbacks := m; trace := trace s |}.

Definition enter (ev : Event) (s : State) : State :=
  {| world := world s; callbacks := callbacks s; trace := trace s ++ [ev] |}.

(** [function(args...)] *)
Definition call_function (function : FunctionPtr) (args : Args) : M R := fun s =>
  if decide (function = nullptr) then Undefined else
  match functions prog function with
  | None => Undefined
  | Some body =>
      let s1 := enter (EvFunction function args) s in
      match body args (world s1) with
      | Returns r w => Returns r (set_world w s1)
      | Throws e w => Throws e (set_world w s1)
      | Undefined => Undefined
      end
  end.

(** [(this->*F)(args...)], [F] a non-const member *)
Definition call_member (F : MemFn) (this : Ptr) (args : Args) : M R := fun s =>
  if decide (ptr_addr this = nullptr) then Undefined else
  match objects (world s) !! ptr_addr this with
  | None => Undefined
  | Some o =>
      let s1 := enter (EvMember F (ptr_addr this) args) s in
      let store o' g' :=
        set_world {| objects := <[ptr_addr this := o']> (objects (world s));
                     globals := g' |} s1 in
      match members prog F args o (globals (world s)) with
      | Returns r (o', g') => Returns r (store o' g')
      | Throws e (o', g') => Throws e (store o' g')
      | Undefined => Undefined
      end
  end.

(** [(this->*F)(args...)], [F] a const member *)
Definition call_const_member (F : ConstMemFn) (this : ConstPtr) (args : Args)
  : M R := fun s =>
  if decide (const_ptr_addr this = nullptr) then Undefined else
  match objects (world s) !! const_ptr_addr this with
  | None => Undefined
  | Some o =>
      let s1 := enter (EvConstMember F (const_ptr_addr this) args) s in
      let store g' :=
        set_world {| objects := objects (world s); globals := g' |} s1 in
      match const_members prog F args o (globals (world s)) with
      | Returns r g' => Returns r (store g')
      | Throws e g' => Throws e (store g')
      | Undefined => Undefined
      end
  end.

(** A call of one of the program's own trampolines. *)
Definition call_user (u : UserFn) (context : Context) (args : Args) : M R :=
  fun s =>
  let s1 := enter (EvUser u context args) s in
  match user_functors prog u context args (world s1) with
  | Returns r w => Returns r (set_world w s1)
  | Throws e w => Throws e (set_world w s1)
  | Undefined => Undefined
  end.

(** *** The lambdas *)

(** Arguments are values here; how often a by-value argument is
    constructed on its way to the target is counted under "Argument
    passing" below. *)

(** The lambda in [util::Function]. *)
Definition Function_lambda (context : Context) (args : Args) : M R :=
  call_function (reinterpret_cast_function context) args.

(** The lambda in the non-const [_BindHelper<F>]. *)
Definition _BindHelper_lambda (F : MemFn) (context : Context) (args : Args)
  : M R :=
  call_member F (static_cast_T context) args.

(** The lambda in the const [_BindHelper<F>]. *)
Definition _BindHelper_const_lambda (F : ConstMemFn) (context : Context)
  (args : Args) : M R :=
  call_const_member F (static_cast_const_T context) args.

(** [functor(context, args...)]: the call through the pointer. *)
Definition call_functor (functor : Functor) (context : Context) (args : Args)
  : M R :=
  match functor with
  | Functor_null => fun _ => Undefined
  | Functor_Function => Function_lambda context args
  | Functor_Bind F => _BindHelper_lambda F context args
  | Functor_Bind_const F => _BindHelper_const_lambda F context args
  | Functor_user u => call_user u context args
  end.

(** [operator()] *)
Definition Callback_call (this : Callback) (args : Args) : M R :=
  if negb (IsSet this) then ret R_default
  else call_functor (functor this) (context this) args.

(** *** The helpers *)

Definition Function (function : FunctionPtr) : Callback :=
  Callback_new (reinterpret_cast_void function) Functor_Function.

(** The [function] parameter only resolves the types. *)
Definition _BindHelper (F : MemFn) (item : Ptr) (function : MemFn) : Callback :=
  Callback_new (static_cast_void item) (Functor_Bind F).

Definition _BindHelper_const (F : ConstMemFn) (item : ConstPtr)
  (function : ConstMemFn) : Callback :=
  Callback_new (static_cast_void (const_cast_T item)) (Functor_Bind_const F).

Definition Bind (F : MemFn) (item : Ptr) : Callback :=
  _BindHelper F item F.

Definition Bind_const (F : ConstMemFn) (item : ConstPtr) : Callback :=
  _BindHelper_const F item F.

(** *** Callback variables *)

(** The member functions again, on a callback held in a variable: each
    reads its fields through [this]. *)
Definition load (this : addr) : M Callback := fun s =>
  match callbacks s !! this with
  | Some c => Returns c s
  | None => Undefined
  end.

Definition store (this : addr) (c : Callback) : M unit := fun s =>
  Returns tt (set_callbacks (<[this := c]> (callbacks s)) s).

Definition IsSet_at (this : addr) : M bool :=
  let* c := load this in ret (IsSet c).

Definition Callback_bool_at (this : addr) : M bool :=
  let* c := load this in ret (Callback_bool c).

Definition Callback_eq_at (this other : addr) : M bool :=
  let* c := load this in let* d := load other in ret (Callback_eq c d).

Definition Callback_ne_at (this other : addr) : M bool :=
  let* c := load this in let* d := load other in ret (Callback_ne c d).

Definition Callback_call_at (this : addr) (args : Args) : M R :=
  let* c := load this in Callback_call c args.

(** [Callback &operator=(const Callback &other) = default] *)
Definition Callback_assign (this : addr) (other : Callback) : M unit :=
  store this {| context := context other; functor := functor other |}.

(** A new variable at [this], copy-constructed from the one at [other]. *)
Definition Callback_copy_at (this other : addr) : M unit :=
  let* c := load other in store this (Callback_copy c).

(** *** Argument passing *)

(** The calls once more, now keeping count of how often the by-value
    parameters of the pack [Args...] are constructed from the arguments
    handed over: by copy or by move.  [Args_by_value] tells whether the
    pack has parameters of object type at all; parameters of reference
    type are bound, not constructed. *)
Variable Args_by_value : bool.

(** The value category of the arguments at a call. *)
Inductive Category : Type := lvalue | xvalue | prvalue.

Record Counted : Type := {
  plain : State;
  copies : nat;
  moves : nat
}.

Definition MC (X : Type) : Type := Counted -> Outcome Exn Counted X.

(** Initialising the parameters [Args...] of a callee from arguments of
    a category: an lvalue is copied, an xvalue is moved, a prvalue
    initialises the parameter in place. *)
Definition init_params (c : Category) (cs : Counted) : Counted :=
  if Args_by_value then
    match c with
    | lvalue =>
        {| plain := plain cs; copies := S (copies cs); moves := moves cs |}
    | xvalue =>
        {| plain := plain cs; copies := copies cs; moves := S (moves cs) |}
    | prvalue => cs
    end
  else cs.

(** [std::forward<Argsp>(args)], for [Argsp &&args] bound to an argument
    of the category: an lvalue stays one, anything else is an xvalue. *)
Definition forward (c : Category) : Category :=
  match c with
  | lvalue => lvalue
  | xvalue | prvalue => xvalue
  end.

(** A computation that constructs no parameter of its own. *)
Definition counting {X} (m : M X) : MC X := fun cs =>
  map_state
    (fun s => {| plain := s; copies := copies cs; moves := moves cs |})
    (m (plain cs)).

(** [function(args...)], the arguments being of category [c]. *)
Definition call_function_counted (function : FunctionPtr) (c : Category)
  (args : Args) : MC R := fun cs =>
  counting (call_function function args) (init_params c cs).

(** [(this->*F)(args...)], [F] a non-const member. *)
Definition call_member_counted (F : MemFn) (this : Ptr) (c : Category)
  (args : Args) : MC R := fun cs =>
  counting (call_member F this args) (init_params c cs).

(** [(this->*F)(args...)], [F] a const member. *)
Definition call_const_member_counted (F : ConstMemFn) (this : ConstPtr)
  (c : Category) (args : Args) : MC R := fun cs =>
  counting (call_const_member F this args) (init_params c cs).

(** The three lambdas take [Args... args] by value and hand [args...]
    on: inside a lambda its parameters are lvalues, so the target's
    parameters are copied from them (and [Args...] must be
    copy-constructible for the helper to instantiate). *)
Definition Function_lambda_counted (context : Context) (args : Args) : MC R :=
  call_function_counted (reinterpret_cast_function context) lvalue args.

Definition _BindHelper_lambda_counted (F : MemFn) (context : Context)
  (args : Args) : MC R :=
  call_member_counted F (static_cast_T context) lvalue args.

Definition _BindHelper_const_lambda_counted (F : ConstMemFn)
  (context : Context) (args : Args) : MC R :=
  call_const_member_counted F (static_cast_const_T context) lvalue args.

(** [functor(context, args...)], the arguments being of category [c]:
    the trampoline's parameters are initialised, then its body runs.
    What a trampoline written by hand constructs in its body is not
    counted. *)
Definition call_functor_counted (functor : Functor) (context : Context)
  (c : Category) (args : Args) : MC R := fun cs =>
  match functor with
  | Functor_null => Undefined
  | Functor_Function => Function_lambda_counted context args (init_params c cs)
  | Functor_Bind F => _BindHelper_lambda_counted F context args (init_params c cs)
  | Functor_Bind_const F =>
      _BindHelper_const_lambda_counted F context args (init_params c cs)
  | Functor_user u => counting (call_user u context args) (init_params c cs)
  end.

(** [operator()]: its own parameters [Argsp &&... args] are references,
    and it hands [std::forward<Argsp>(args)...] to the functor. *)
Definition Callback_call_counted (this : Callback) (c : Category) (args : Args)
  : MC R :=
  if negb (IsSet this) then fun cs => Returns R_default cs
  else call_functor_counted (functor this) (context this) (forward c) args.

End Signature.

Arguments Callback_new {MemFn ConstMemFn UserFn} context functor.
Arguments context {MemFn ConstMemFn UserFn} c.
Arguments functor {MemFn ConstMemFn UserFn} c.
Arguments Functor_null {MemFn ConstMemFn UserFn}.
Arguments Functor_Function {MemFn ConstMemFn UserFn}.
Arguments Functor_Bind {MemFn ConstMemFn UserFn} F.
Arguments Functor_Bind_const {MemFn ConstMemFn UserFn} F.
Arguments Functor_user {MemFn ConstMemFn UserFn} u.
Arguments Callback_of_functor {MemFn ConstMemFn UserFn} functor.
Arguments Callback_default {MemFn ConstMemFn UserFn}.
Arguments Callback_copy {MemFn ConstMemFn UserFn} other.
Arguments IsSet {MemFn ConstMemFn UserFn _ _ _} this.
Arguments Callback_bool {MemFn ConstMemFn UserFn _ _ _} this.
Arguments Callback_eq {MemFn ConstMemFn UserFn _ _ _} this other.
Arguments Callback_ne {MemFn ConstMemFn UserFn _ _ _} this other.
Arguments Function {MemFn ConstMemFn UserFn} function.
Arguments _BindHelper {MemFn ConstMemFn UserFn} F item function.
Arguments _BindHelper_const {MemFn ConstMemFn UserFn} F item function.
Arguments Bind {MemFn ConstMemFn UserFn} F item.
Arguments Bind_const {MemFn ConstMemFn UserFn} F item.
Arguments Build_World {T G} objects globals.
Arguments objects {T G} w.
Arguments globals {T G} w.
Arguments Build_State {Args T G MemFn ConstMemFn UserFn} world callbacks trace.
Arguments world {Args T G MemFn ConstMemFn UserFn} s.
Arguments callbacks {Args T G MemFn ConstMemFn UserFn} s.
Arguments trace {Args T G MemFn ConstMemFn UserFn} s.
Arguments EvFunction {Args MemFn ConstMemFn UserFn} function args.
Arguments EvMember {Args MemFn ConstMemFn UserFn} F this args.
Arguments EvConstMember {Args MemFn ConstMemFn UserFn} F this args.
Arguments EvUser {Args MemFn ConstMemFn UserFn} u context args.
Arguments Build_Program {R Args T G Exn MemFn ConstMemFn UserFn}.
Arguments functions {R Args T G Exn MemFn ConstMemFn UserFn} p.
Arguments members {R Args T G Exn MemFn ConstMemFn UserFn} p.
Arguments const_members {R Args T G Exn MemFn ConstMemFn UserFn} p.
Arguments user_functors {R Args T G Exn MemFn ConstMemFn UserFn} p.
Arguments ret {Args T G Exn MemFn ConstMemFn UserFn X} x.
Arguments bind {Args T G Exn MemFn ConstMemFn UserFn X Y} m k.
Arguments set_world {Args T G MemFn ConstMemFn UserFn} w s.
Arguments set_callbacks {Args T G MemFn ConstMemFn UserFn} m s.
Arguments enter {Args T G MemFn ConstMemFn UserFn} ev s.
Arguments call_function {R Args T G Exn MemFn ConstMemFn UserFn} prog function args.
Arguments call_member {R Args T G Exn MemFn ConstMemFn UserFn} prog F this args.
Arguments call_const_member {R Args T G Exn MemFn ConstMemFn UserFn} prog F this args.
Arguments call_user {R Args T G Exn MemFn ConstMemFn UserFn} prog u context args.
Arguments Function_lambda {R Args T G Exn MemFn ConstMemFn UserFn} prog context args.
Arguments _BindHelper_lambda {R Args T G Exn MemFn ConstMemFn UserFn} prog F context args.
Arguments _BindHelper_const_lambda {R Args T G Exn MemFn ConstMemFn UserFn} prog F context args.
Arguments call_functor {R Args T G Exn MemFn ConstMemFn UserFn} prog functor context args.
Arguments Callback_call {R Args} R_default {T G Exn MemFn ConstMemFn UserFn _ _ _} prog this args.
Arguments load {Args T G Exn MemFn ConstMemFn UserFn} this.
Arguments store {Args T G Exn MemFn ConstMemFn UserFn} this c.
Arguments IsSet_at {Args T G Exn MemFn ConstMemFn UserFn _ _ _} this.
Arguments Callback_bool_at {Args T G Exn MemFn ConstMemFn UserFn _ _ _} this.
Arguments Callback_eq_at {Args T G Exn MemFn ConstMemFn UserFn _ _ _} this other.
Arguments Callback_ne_at {Args T G Exn MemFn ConstMemFn UserFn _ _ _} this other.
Arguments Callback_call_at {R Args} R_default {T G Exn MemFn ConstMemFn UserFn _ _ _} prog this args.
Arguments Callback_assign {Args T G Exn MemFn ConstMemFn UserFn} this other.
Arguments Callback_copy_at {Args T G Exn MemFn ConstMemFn UserFn} this other.
Arguments Build_Counted {Args T G MemFn ConstMemFn UserFn} plain copies moves.
Arguments plain {Args T G MemFn ConstMemFn UserFn} c.
Arguments copies {Args T G MemFn ConstMemFn UserFn} c.
Arguments moves {Args T G MemFn ConstMemFn UserFn} c.
Arguments init_params {Args T G MemFn ConstMemFn UserFn} Args_by_value c cs.
Arguments counting {Args T G Exn MemFn ConstMemFn UserFn X} m cs.
Arguments call_function_counted {R Args T G Exn MemFn ConstMemFn UserFn}
  prog Args_by_value function c args cs.
Arguments call_member_counted {R Args T G Exn MemFn ConstMemFn UserFn}
  prog Args_by_value F this c args cs.
Arguments call_const_member_counted {R Args T G Exn MemFn ConstMemFn UserFn}
  prog Args_by_value F this c args cs.
Arguments Function_lambda_counted {R Args T G Exn MemFn ConstMemFn UserFn}
  prog Args_by_value context args.
Arguments _BindHelper_lambda_counted {R Args T G Exn MemFn ConstMemFn UserFn}
  prog Args_by_value F context args.
Arguments _BindHelper_const_lambda_counted
  {R Args T G Exn MemFn ConstMemFn UserFn} prog Args_by_value F context args.
Arguments call_functor_counted {R Args T G Exn MemFn ConstMemFn UserFn}
  prog Args_by_value functor context c args cs.
Arguments Callback_call_counted {R Args} R_default
  {T G Exn MemFn ConstMemFn UserFn _ _ _} prog Args_by_value this c args.

Notation "'let*' x ':=' m 'in' k" := (bind m (fun x => k))
  (at level 10, x name, m at level 100, k at level 200).

End util.

(** ** Two small programs *)

(** [bool f(int x) { return x > 0; }], with a trampoline written by hand
    that tells whether its context is the null pointer. *)
Module Positive.

Definition MemFn : Type := Empty_set.
Definition ConstMemFn : Type := Empty_set.
Inductive UserFn : Type := has_context | has_context'.

#[global] Instance UserFn_eq_dec : EqDecision UserFn.
Proof. solve_decision. Defined.

Definition Callback : Type := util.Callback MemFn ConstMemFn UserFn.
Definition World : Type := util.World unit unit.
Definition State : Type := util.State Z unit unit MemFn ConstMemFn UserFn.

Definition f : Z := 4096.

Definition f_body (x : Z) (w : World) : util.Outcome Empty_set World bool :=
  util.Returns (bool_decide (0 < x)%Z) w.

Definition has_context_body (context : Z) (x : Z) (w : World)
  : util.Outcome Empty_set World bool :=
  util.Returns (negb (bool_decide (context = util.nullptr))) w.

Definition prog
  : util.Program bool Z unit unit Empty_set MemFn ConstMemFn UserFn :=
  {| util.functions p := if decide (p = f) then Some f_body else None;
     util.members F := match F : Empty_set with end;
     util.const_members F := match F : Empty_set with end;
     util.user_functors _ := has_context_body |}.

Definition start : State :=
  {| util.world := {| util.objects := ∅; util.globals := tt |};
     util.callbacks := {[ 16%Z := util.Function f ]};
     util.trace := [] |}.

Definition call (this : Callback) (x : Z) := util.Callback_call false prog this x.

End Positive.

(** A class with [int increment() { return ++count; }] and
    [int get() const { return count; }], and two of its objects. *)
Module Counter.
Import util.

Inductive MemFn : Type := increment.
Inductive ConstMemFn : Type := get.
Definition UserFn : Type := Empty_set.

#[global] Instance MemFn_eq_dec : EqDecision MemFn.
Proof. solve_decision. Defined.
#[global] Instance ConstMemFn_eq_dec : EqDecision ConstMemFn.
Proof. solve_decision. Defined.

Definition Callback : Type := util.Callback MemFn ConstMemFn UserFn.
Definition World : Type := util.World Z unit.
Definition State : Type := util.State unit Z unit MemFn ConstMemFn UserFn.

Definition INT_MAX : Z := 2147483647.

Definition increment_body (_ : unit) (count : Z) (g : unit)
  : util.Outcome Empty_set (Z * unit) Z :=
  if decide (count = INT_MAX) then util.Undefined
  else util.Returns (count + 1)%Z ((count + 1)%Z, g).

Definition get_body (_ : unit) (count : Z) (g : unit)
  : util.Outcome Empty_set unit Z :=
  util.Returns count g.

Definition prog
  : util.Program Z unit Z unit Empty_set MemFn ConstMemFn UserFn :=
  {| util.functions _ := None;
     util.members _ := increment_body;
     util.const_members _ := get_body;
     util.user_functors u := match u : Empty_set with end |}.

Definition counter : util.Ptr := util.ptr 8192.
Definition other_counter : util.Ptr := util.ptr 8196.

Definition start : State :=
  {| util.world := {| util.objects := {[ 8192%Z := 0%Z; 8196%Z := 10%Z ]};
                      util.globals := tt |};
     util.callbacks := ∅;
     util.trace := [] |}.

Definition call (this : Callback) := util.Callback_call 0%Z prog this tt.

(** Three invocations in a row, collecting what they return. *)
Definition thrice (this : Callback) : util.M unit Z unit Empty_set MemFn ConstMemFn UserFn (Z * Z * Z) :=
  let* a := call this in let* b := call this in let* c := call this in
  util.ret (a, b, c).

End Counter.

(** A class [Parcel] whose copy and move constructors can be watched,
    [int weigh(Parcel p) { return p.weight; }], and a class holding a
    total with [int add(Parcel p) { total += p.weight; return total; }]. *)
Module Parcel.
Import util.

Record Args : Type := { weight : Z }.

Inductive MemFn : Type := add.
Definition ConstMemFn : Type := Empty_set.
Definition UserFn : Type := Empty_set.

#[global] Instance MemFn_eq_dec : EqDecision MemFn.
Proof. solve_decision. Defined.

Definition Callback : Type := util.Callback MemFn ConstMemFn UserFn.
Definition World : Type := util.World Z unit.
Definition State : Type := util.State Args Z unit MemFn ConstMemFn UserFn.
Definition Counted : Type := util.Counted Args Z unit MemFn ConstMemFn UserFn.

Definition weigh : Z := 12288.

Definition weigh_body (p : Args) (w : World) : Outcome Empty_set World Z :=
  Returns (weight p) w.

Definition add_body (p : Args) (total : Z) (g : unit)
  : Outcome Empty_set (Z * unit) Z :=
  let sum := (total + weight p)%Z in
  if decide (-2147483648 ≤ sum ≤ 2147483647)%Z then Returns sum (sum, g)
  else Undefined.

Definition prog
  : Program Z Args Z unit Empty_set MemFn ConstMemFn UserFn :=
  {| functions p := if decide (p = weigh) then Some weigh_body else None;
     members _ := add_body;
     const_members F := match F : Empty_set with end;
     user_functors u := match u : Empty_set with end |}.

Definition scale : Ptr := ptr 16384.

Definition start : Counted :=
  {| plain := {| world := {| objects := {[ 16384%Z := 0%Z ]}; globals := tt |};
                 callbacks := ∅;
                 trace := [] |};
     copies := 0;
     moves := 0 |}.

(** A call through a callback, and the call [weigh(p)] itself. *)
Definition call (this : Callback) (c : Category) (p : Args) :=
  Callback_call_counted 0%Z prog true this c p.


End Parcel.

(** * Properties *)

Import util.

Section Properties.

Context {R Args : Type} (R_default : R).
Context {T G Exn MemFn ConstMemFn UserFn : Type}.
Context `{!EqDecision MemFn, !EqDecision ConstMemFn, !EqDecision UserFn}.
Context (prog : Program R Args T G Exn MemFn ConstMemFn UserFn).

Local Abbreviation State := (util.State Args T G MemFn ConstMemFn UserFn).
Local Abbreviation Callback := (util.Callback MemFn ConstMemFn UserFn).
Local Abbreviation call := (Callback_call R_default prog).
Local Abbreviation call_at := (Callback_call_at R_default prog).

Context (Args_by_value : bool).

Local Abbreviation Counted := (util.Counted Args T G MemFn ConstMemFn UserFn).
Local Abbreviation call_counted :=
  (Callback_call_counted R_default prog Args_by_value).

Implicit Types (s : State) (args : Args) (this other : Callback).
Implicit Types (cs : Counted) (cat : Category).

(** ** Set and unset *)

Lemma IsSet_true this : IsSet this = true ↔ functor this ≠ Functor_null.
Proof.
  unfold IsSet. rewrite negb_true_iff, bool_decide_eq_false. reflexivity.
Qed.

Lemma IsSet_false this : IsSet this = false ↔ functor this = Functor_null.
Proof.
  unfold IsSet. rewrite negb_false_iff, bool_decide_eq_true. reflexivity.
Qed.

Lemma call_unset this args s :
  IsSet this = false → call this args s = Returns R_default s.
Proof. intros H. unfold Callback_call. rewrite H. reflexivity. Qed.

Lemma call_set this args s :
  IsSet this = true →
  call this args s = call_functor prog (functor this) (context this) args s.
Proof. intros H. unfold Callback_call. rewrite H. reflexivity. Qed.

Lemma IsSet_Function (function : FunctionPtr) :
  IsSet (Function function : Callback) = true.
Proof. apply IsSet_true. discriminate. Qed.

Lemma IsSet_Bind (F : MemFn) (item : Ptr) :
  IsSet (Bind F item : Callback) = true.
Proof. apply IsSet_true. discriminate. Qed.

Lemma IsSet_Bind_const (F : ConstMemFn) (item : ConstPtr) :
  IsSet (Bind_const F item : Callback) = true.
Proof. apply IsSet_true. discriminate. Qed.

(** ** Invocation through the helpers *)

Lemma call_Function (function : FunctionPtr) args s :
  call (Function function) args s = call_function prog function args s.
Proof. rewrite call_set by apply IsSet_Function. reflexivity. Qed.

Lemma call_Bind (F : MemFn) (item : Ptr) args s :
  call (Bind F item) args s = call_member prog F item args s.
Proof.
  rewrite call_set by apply IsSet_Bind. destruct item as [a]. reflexivity.
Qed.

Lemma call_Bind_const (F : ConstMemFn) (item : ConstPtr) args s :
  call (Bind_const F item) args s = call_const_member prog F item args s.
Proof.
  rewrite call_set by apply IsSet_Bind_const. destruct item as [a]. reflexivity.
Qed.

(** ** Argument passing *)

Lemma init_params_plain cat cs :
  plain (init_params Args_by_value cat cs) = plain cs.
Proof. unfold init_params. destruct Args_by_value, cat; reflexivity. Qed.

Lemma init_params_copies cat cs :
  copies (init_params Args_by_value cat cs)
  = copies cs + (if Args_by_value
                 then match cat with lvalue => 1 | _ => 0 end else 0).
Proof. unfold init_params. destruct Args_by_value, cat; cbn; lia. Qed.

Lemma call_counted_unset this cat args cs :
  IsSet this = false → call_counted this cat args cs = Returns R_default cs.
Proof. intros H. unfold Callback_call_counted. rewrite H. reflexivity. Qed.

Lemma call_counted_set this cat args cs :
  IsSet this = true →
  call_counted this cat args cs
  = call_functor_counted prog Args_by_value (functor this) (context this)
      (forward cat) args cs.
Proof. intros H. unfold Callback_call_counted. rewrite H. reflexivity. Qed.

Lemma counting_plain {X} (m : M Args T G Exn MemFn ConstMemFn UserFn X) cs :
  map_state plain (counting m cs) = m (plain cs).
Proof. unfold counting. destruct (m (plain cs)); reflexivity. Qed.

(** Forgetting the counts gives the invocation as first defined. *)
Lemma call_counted_plain this cat args cs :
  map_state plain (call_counted this cat args cs) = call this args (plain cs).
Proof.
  unfold Callback_call_counted, Callback_call.
  destruct (negb (IsSet this)); [reflexivity|].
  unfold call_functor_counted, call_functor.
  destruct (functor this) as [| |F|F|u]; [reflexivity|..];
    unfold Function_lambda_counted, _BindHelper_lambda_counted,
      _BindHelper_const_lambda_counted, call_function_counted,
      call_member_counted, call_const_member_counted;
    rewrite counting_plain, ?init_params_plain; reflexivity.
Qed.


(** C2. A callback made by [util::Bind] from an object and a non-const
    member behaves, when invoked, as the member called on that object:
    it returns or throws what the member's body does on the object's
    value, the value the body leaves is the value found at the object's
    own address afterwards, no other object changes and none appears,
    and the member is entered exactly once on that object. *)
Theorem Bind_call_exact (F : MemFn) (item : Ptr) (o : T) args s :
  ptr_addr item ≠ nullptr →
  objects (world s) !! ptr_addr item = Some o →
  let direct := members prog F args o (globals (world s)) in
  let invoked := call (Bind F item) args s in
  invoked = call_member prog F item args s
  ∧ returned invoked = returned direct
  ∧ thrown invoked = thrown direct
  ∧ (λ s', objects (world s') !! ptr_addr item) <$> final_state invoked
    = (λ og, Some (fst og)) <$> final_state direct
  ∧ (λ s', objects (world s')) <$> final_state invoked
    = (λ og, <[ptr_addr item := fst og]> (objects (world s)))
        <$> final_state direct
  ∧ (λ s', globals (world s')) <$> final_state invoked
    = snd <$> final_state direct
  ∧ trace <$> final_state invoked
    = (λ _, trace s ++ [EvMember F (ptr_addr item) args])
        <$> final_state direct
  ∧ (invoked = Undefined ↔ direct = Undefined).
Proof.
  intros Hnull Hobj direct invoked. subst invoked.
  rewrite call_Bind. split; [reflexivity|].
  unfold call_member. rewrite decide_False by assumption. rewrite Hobj.
  fold direct.
  destruct direct as [r [o' g']|e [o' g']|]; cbn;
    rewrite ?lookup_insert_eq; repeat split; congruence.
Qed.

(** C3. A default-constructed callback is not set, converts to [false],
    and its invocation returns [R{}] in the very state it was invoked
    in: nothing is entered, nothing thrown, nothing undefined. *)
Theorem default_call_exact args s :
  IsSet (Callback_default : Callback) = false
  ∧ Callback_bool (Callback_default : Callback) = false
  ∧ call Callback_default args s = Returns R_default s.
Proof.
  split; [reflexivity|]. split; [reflexivity|].
  apply call_unset. reflexivity.
Qed.

(** ** What invocation leaves alone *)

Lemma call_functor_callbacks (fn : Functor MemFn ConstMemFn UserFn)
    (ctx : Context) args s s' :
  final_state (call_functor prog fn ctx args s) = Some s' →
  callbacks s' = callbacks s.
Proof.
  destruct fn as [| |F|F|u]; cbn.
  - discriminate.
  - unfold Function_lambda, call_function.
    destruct (decide _); [discriminate|].
    destruct (functions prog _) as [body|]; [|discriminate].
    destruct (body _ _); cbn; intros [= <-]; reflexivity.
  - unfold _BindHelper_lambda, call_member.
    destruct (decide _); [discriminate|].
    destruct (objects _ !! _) as [o|]; [|discriminate].
    destruct (members _ _ _ _ _) as [r [o' g']|e [o' g']|]; cbn;
      intros [= <-]; reflexivity.
  - unfold _BindHelper_const_lambda, call_const_member.
    destruct (decide _); [discriminate|].
    destruct (objects _ !! _) as [o|]; [|discriminate].
    destruct (const_members _ _ _ _ _); cbn; intros [= <-]; reflexivity.
  - unfold call_user.
    destruct (user_functors _ _ _ _ _); cbn; intros [= <-]; reflexivity.
Qed.

Lemma call_callbacks this args s s' :
  final_state (call this args s) = Some s' → callbacks s' = callbacks s.
Proof.
  unfold Callback_call. destruct (negb (IsSet this)).
  - cbn. intros [= <-]. reflexivity.
  - apply call_functor_callbacks.
Qed.

(** C4, as the code has it.  Invoking a set callback, whatever pair it
    was built from, is the call [functor(context, args...)] with the
    arguments forwarded, and its outcome is the trampoline's.  The
    operator itself writes nothing and constructs each by-value argument
    once, into the trampoline's parameter: by copy from an lvalue, by
    move otherwise.  The lambda of a helper then calls its target with
    that parameter as an lvalue, which copies it once more; a
    trampoline written by hand is entered with the context and the
    arguments as given.  Exactly one target is entered, and no callback
    variable holds anything afterwards that it did not hold before. *)
Theorem set_call_counted_exact (ctx : Context)
    (fn : Functor MemFn ConstMemFn UserFn) cat args cs :
  fn ≠ Functor_null →
  let this := Callback_new ctx fn in
  let invoked := call_counted this cat args cs in
  let entry := init_params Args_by_value (forward cat) cs in
  let by_value := if Args_by_value then 1 else 0 in
  IsSet this = true
  ∧ invoked
    = call_functor_counted prog Args_by_value fn ctx (forward cat) args cs
  ∧ map_state plain invoked = call this args (plain cs)
  ∧ plain entry = plain cs
  ∧ copies entry
    = copies cs + by_value * match cat with lvalue => 1 | _ => 0 end
  ∧ moves entry
    = moves cs + by_value * match cat with lvalue => 0 | _ => 1 end
  ∧ match fn with
    | Functor_null => True
    | Functor_Function =>
        invoked
        = call_function_counted prog Args_by_value ctx lvalue args entry
    | Functor_Bind F =>
        invoked
        = call_member_counted prog Args_by_value F (ptr ctx) lvalue args entry
    | Functor_Bind_const F =>
        invoked
        = call_const_member_counted prog Args_by_value F (const_ptr ctx)
            lvalue args entry
    | Functor_user u => invoked = counting (call_user prog u ctx args) entry
    end
  ∧ copies <$> final_state invoked
    = (λ _, copies entry
            + by_value * match fn with Functor_user _ => 0 | _ => 1 end)
        <$> final_state invoked
  ∧ (λ cs', trace (plain cs')) <$> final_state invoked
    = (λ _, trace (plain cs) ++
            match fn with
            | Functor_null => []
            | Functor_Function => [EvFunction ctx args]
            | Functor_Bind F => [EvMember F ctx args]
            | Functor_Bind_const F => [EvConstMember F ctx args]
            | Functor_user u => [EvUser u ctx args]
            end) <$> final_state invoked
  ∧ (λ cs', callbacks (plain cs')) <$> final_state invoked
    = (λ _, callbacks (plain cs)) <$> final_state invoked.
Proof.
  intros Hfn this invoked entry by_value.
  assert (Hset : IsSet this = true) by (apply IsSet_true; exact Hfn).
  assert (Hinv : invoked = call_functor_counted prog Args_by_value fn ctx
                             (forward cat) args cs)
    by (apply call_counted_set; exact Hset).
  assert (Hplain : plain entry = plain cs) by apply init_params_plain.
  split; [exact Hset|]. split; [exact Hinv|].
  split; [apply call_counted_plain|].
  split; [exact Hplain|].
  split. { subst entry by_value. unfold init_params.
           destruct Args_by_value, cat; cbn; lia. }
  split. { subst entry by_value. unfold init_params.
           destruct Args_by_value, cat; cbn; lia. }
  rewrite Hinv. clear Hinv Hset invoked. subst this.
  unfold call_functor_counted. fold entry. clearbody entry.
  assert (Hone : ∀ n : nat, n + (if Args_by_value then 1 else 0)
                            = n + by_value * 1)
    by (intros n; subst by_value; destruct Args_by_value; lia).
  assert (Hnone : ∀ n : nat, n = n + by_value * 0) by (intros n; lia).
  clearbody by_value.
  destruct fn as [| |F|F|u]; [done|..].
  - split; [reflexivity|].
    unfold Function_lambda_counted, call_function_counted, counting,
      call_function, reinterpret_cast_function.
    rewrite init_params_plain, init_params_copies, Hplain, Hone.
    destruct (decide _); [done|].
    destruct (functions prog ctx) as [body|]; [|done].
    cbn [enter world]. destruct (body _ _); cbn; repeat split; reflexivity.
  - split; [reflexivity|].
    unfold _BindHelper_lambda_counted, call_member_counted, counting,
      call_member, static_cast_T.
    rewrite init_params_plain, init_params_copies, Hplain, Hone.
    cbn [ptr_addr].
    destruct (decide _); [done|].
    destruct (objects _ !! _) as [o|]; [|done].
    destruct (members _ _ _ _ _) as [r [o' g']|e [o' g']|];
      cbn; repeat split; reflexivity.
  - split; [reflexivity|].
    unfold _BindHelper_const_lambda_counted, call_const_member_counted,
      counting, call_const_member, static_cast_const_T.
    rewrite init_params_plain, init_params_copies, Hplain, Hone.
    cbn [const_ptr_addr].
    destruct (decide _); [done|].
    destruct (objects _ !! _) as [o|]; [|done].
    destruct (const_members _ _ _ _ _); cbn; repeat split; reflexivity.
  - split; [reflexivity|].
    unfold counting, call_user. rewrite Hplain. cbn [enter world].
    destruct (user_functors _ _ _ _ _); cbn; repeat split;
      rewrite <- Hnone; reflexivity.
Qed.

(** ** Comparison *)

Lemma Callback_eq_true this other :
  Callback_eq this other = true ↔ this = other.
Proof.
  unfold Callback_eq.
  rewrite andb_true_iff, !bool_decide_eq_true.
  destruct this, other; cbn. split; [intros [-> ->]|intros [= -> ->]]; done.
Qed.

Lemma Callback_eq_false this other :
  Callback_eq this other = false ↔ this ≠ other.
Proof.
  rewrite <- Callback_eq_true. destruct (Callback_eq this other); split; congruence.
Qed.

(** C5. [operator==] holds exactly when the two contexts are equal and
    the two functors are equal, [operator!=] is its negation, and two
    callbacks holding different functions are unequal even when the
    two functions do the same. *)
Theorem Callback_eq_structural this other :
  (Callback_eq this other = true
     ↔ context this = context other ∧ functor this = functor other)
  ∧ Callback_ne this other = negb (Callback_eq this other)
  ∧ (∀ (u v : UserFn) (ctx : Context),
       u ≠ v → user_functors prog u = user_functors prog v →
       Callback_eq (Callback_new ctx (Functor_user u) : Callback)
                   (Callback_new ctx (Functor_user v)) = false).
Proof.
  split; [|split; [reflexivity|]].
  - unfold Callback_eq. rewrite andb_true_iff, !bool_decide_eq_true. reflexivity.
  - intros u v ctx Huv _. apply Callback_eq_false. congruence.
Qed.

(** C6, as the code has it.  Two callbacks made from the same free
    function are equal; two callbacks binding the same member to
    objects at different addresses are unequal; a set callback and a
    default-constructed one are unequal; two default-constructed
    callbacks are equal; an unset callback equals a
    default-constructed one exactly when its context is null; and two
    unset callbacks are equal exactly when their contexts are, so that
    two unset callbacks with different contexts are unequal. *)
Theorem Callback_eq_cases :
  (∀ function : FunctionPtr,
     Callback_eq (Function function : Callback) (Function function) = true)
  ∧ (∀ (F : MemFn) (o1 o2 : Ptr), o1 ≠ o2 →
       Callback_eq (Bind F o1 : Callback) (Bind F o2) = false)
  ∧ (∀ (F : ConstMemFn) (o1 o2 : ConstPtr), o1 ≠ o2 →
       Callback_eq (Bind_const F o1 : Callback) (Bind_const F o2) = false)
  ∧ (∀ this, IsSet this = true →
       Callback_eq this Callback_default = false
       ∧ Callback_eq Callback_default this = false)
  ∧ Callback_eq (Callback_default : Callback) Callback_default = true
  ∧ (∀ this, IsSet this = false →
       (Callback_eq this Callback_default = true ↔ context this = nullptr))
  ∧ (∀ this other, IsSet this = false → IsSet other = false →
       (Callback_eq this other = true ↔ context this = context other))
  ∧ (∀ this other, IsSet this = false → IsSet other = false →
       context this ≠ context other → Callback_eq this other = false).
Proof.
  assert (Hpair : ∀ this other, IsSet this = false → IsSet other = false →
            (Callback_eq this other = true ↔ context this = context other)).
  { intros [ctx1 fn1] [ctx2 fn2] H1 H2.
    apply IsSet_false in H1. apply IsSet_false in H2. cbn in H1, H2.
    subst fn1 fn2. rewrite Callback_eq_true. cbn. split.
    - intros [= ->]. reflexivity.
    - intros ->. reflexivity. }
  split; [|split; [|split; [|split; [|split; [|split; [|split]]]]]];
    [..|exact Hpair
       |intros this other H1 H2 Hne; apply not_true_iff_false;
        intros Heq; apply Hne; exact (proj1 (Hpair this other H1 H2) Heq)].
  - intros function. apply Callback_eq_true. reflexivity.
  - intros F [a1] [a2] Hne. apply Callback_eq_false. intros [= ->]. done.
  - intros F [a1] [a2] Hne. apply Callback_eq_false. intros [= ->]. done.
  - intros this Hset. apply IsSet_true in Hset.
    split; apply Callback_eq_false; intros Heq; apply Hset;
      [rewrite Heq | rewrite <- Heq]; reflexivity.
  - apply Callback_eq_true. reflexivity.
  - intros [ctx fn] Hunset. apply IsSet_false in Hunset. cbn in Hunset.
    subst fn. rewrite Callback_eq_true. cbn. split.
    + intros [= ->]. reflexivity.
    + intros ->. reflexivity.
Qed.

(** C7. [util::Bind] over a const object and a const member gives a set
    callback whose context, cast back to a pointer to const, is the
    object bound; invoking it runs the lambda of the const overload,
    which is the member called through that pointer.  The call returns
    or throws what the member's body does on the object's value, is
    entered once, and leaves every object as it was. *)
Theorem Bind_const_call_exact (F : ConstMemFn) (item : ConstPtr) (o : T)
    args s :
  const_ptr_addr item ≠ nullptr →
  objects (world s) !! const_ptr_addr item = Some o →
  let direct := const_members prog F args o (globals (world s)) in
  let this : Callback := Bind_const F item in
  let invoked := call this args s in
  IsSet this = true
  ∧ static_cast_const_T (context this) = item
  ∧ invoked = _BindHelper_const_lambda prog F (context this) args s
  ∧ invoked = call_const_member prog F item args s
  ∧ returned invoked = returned direct
  ∧ thrown invoked = thrown direct
  ∧ (λ s', objects (world s')) <$> final_state invoked
    = (λ _, objects (world s)) <$> final_state direct
  ∧ (λ s', globals (world s')) <$> final_state invoked = final_state direct
  ∧ trace <$> final_state invoked
    = (λ _, trace s ++ [EvConstMember F (const_ptr_addr item) args])
        <$> final_state direct
  ∧ (invoked = Undefined ↔ direct = Undefined).
Proof.
  intros Hnull Hobj direct this invoked. subst invoked this.
  split; [apply IsSet_Bind_const|].
  split; [destruct item; reflexivity|].
  split; [apply call_set, IsSet_Bind_const|].
  rewrite call_Bind_const. split; [reflexivity|].
  unfold call_const_member. rewrite decide_False by assumption.
  rewrite Hobj. fold direct.
  destruct direct; cbn; repeat split; congruence.
Qed.

(** C8. [util::Function] keeps the address of the function it is given
    as the context and installs its lambda, which is not null, as the
    functor; so the callback is set, also when the function pointer is
    null, and then with a null context. *)
Theorem Function_fields (function : FunctionPtr) :
  let this : Callback := Function function in
  context this = function
  ∧ functor this = Functor_Function
  ∧ functor this ≠ Functor_null
  ∧ IsSet this = true
  ∧ context (Function nullptr : Callback) = nullptr
  ∧ IsSet (Function nullptr : Callback) = true.
Proof.
  cbn zeta. repeat split; try reflexivity. discriminate.
Qed.

(** ** Callback variables *)

Lemma call_functor_set_callbacks (fn : Functor MemFn ConstMemFn UserFn)
    (ctx : Context) args s m :
  call_functor prog fn ctx args (set_callbacks m s)
  = map_state (set_callbacks m) (call_functor prog fn ctx args s).
Proof.
  destruct fn as [| |F|F|u]; cbn.
  - reflexivity.
  - unfold Function_lambda, call_function.
    destruct (decide _); [reflexivity|].
    destruct (functions prog _) as [body|]; [|reflexivity].
    cbn. destruct (body _ _); reflexivity.
  - unfold _BindHelper_lambda, call_member.
    destruct (decide _); [reflexivity|]. cbn.
    destruct (objects _ !! _) as [o|]; [|reflexivity].
    destruct (members _ _ _ _ _) as [r [o' g']|e [o' g']|]; reflexivity.
  - unfold _BindHelper_const_lambda, call_const_member.
    destruct (decide _); [reflexivity|]. cbn.
    destruct (objects _ !! _) as [o|]; [|reflexivity].
    destruct (const_members _ _ _ _ _); reflexivity.
  - unfold call_user. cbn.
    destruct (user_functors _ _ _ _ _); reflexivity.
Qed.

Lemma call_set_callbacks this args s m :
  call this args (set_callbacks m s)
  = map_state (set_callbacks m) (call this args s).
Proof.
  unfold Callback_call. destruct (negb (IsSet this)).
  - reflexivity.
  - apply call_functor_set_callbacks.
Qed.

Lemma call_at_lookup (x : addr) this args s :
  callbacks s !! x = Some this → call_at x args s = call this args s.
Proof.
  intros H. unfold Callback_call_at, bind, load. rewrite H. reflexivity.
Qed.

(** C9. A callback copy-constructed from another holds the same pair,
    and invoking either of the two gives the same outcome.  Assigning
    a new target to one of them leaves the other with the pair it had,
    and its invocation with the outcome it had before the assignment
    (the variable that was assigned aside).  This holds whether the
    callback copied is set or not. *)
Theorem copy_then_assign (a b : addr) (c d : Callback) args s :
  a ≠ b →
  callbacks s !! a = Some c →
  let s1 := set_callbacks (<[b := c]> (callbacks s)) s in
  let s2 := set_callbacks (<[a := d]> (callbacks s1)) s1 in
  let s3 := set_callbacks (<[b := d]> (callbacks s1)) s1 in
  Callback_copy c = c
  ∧ Callback_copy_at (Exn:=Exn) b a s = Returns tt s1
  ∧ callbacks s1 !! a = Some c ∧ callbacks s1 !! b = Some c
  ∧ call_at b args s1 = call_at a args s1
  ∧ Callback_assign (Exn:=Exn) a d s1 = Returns tt s2
  ∧ callbacks s2 !! b = Some c
  ∧ call_at b args s2
    = map_state (set_callbacks (callbacks s2)) (call_at b args s1)
  ∧ Callback_assign (Exn:=Exn) b d s1 = Returns tt s3
  ∧ callbacks s3 !! a = Some c
  ∧ call_at a args s3
    = map_state (set_callbacks (callbacks s3)) (call_at a args s1).
Proof.
  intros Hab Ha s1 s2 s3.
  assert (Hcopy : Callback_copy c = c) by (destruct c; reflexivity).
  assert (H1a : callbacks s1 !! a = Some c).
  { cbn. rewrite lookup_insert_ne by congruence. exact Ha. }
  assert (H1b : callbacks s1 !! b = Some c).
  { cbn. apply lookup_insert_eq. }
  assert (H2b : callbacks s2 !! b = Some c).
  { cbn. rewrite lookup_insert_ne by congruence. apply lookup_insert_eq. }
  assert (H3a : callbacks s3 !! a = Some c).
  { cbn. rewrite !lookup_insert_ne by congruence. exact Ha. }
  split; [exact Hcopy|].
  split. { unfold Callback_copy_at, bind, load. rewrite Ha, Hcopy. reflexivity. }
  split; [exact H1a|]. split; [exact H1b|].
  split. { rewrite (call_at_lookup b c), (call_at_lookup a c) by assumption.
           reflexivity. }
  split. { destruct d; reflexivity. }
  split; [exact H2b|].
  split. { rewrite (call_at_lookup b c args s2), (call_at_lookup b c args s1)
             by assumption.
           apply call_set_callbacks. }
  split. { destruct d; reflexivity. }
  split; [exact H3a|].
  rewrite (call_at_lookup a c args s3), (call_at_lookup a c args s1)
    by assumption.
  apply call_set_callbacks.
Qed.

(** C10. [IsSet], the conversion to [bool], [operator==] and
    [operator!=] end in the state they started in; an invocation, set
    or unset, ends with every callback variable holding the pair it
    held before; and an assignment does change the variable assigned,
    to the pair assigned. *)
Theorem observers_keep_fields (x y : addr) (d : Callback) args s :
  (∀ s', final_state (IsSet_at (Exn:=Exn) x s) = Some s' → s' = s)
  ∧ (∀ s', final_state (Callback_bool_at (Exn:=Exn) x s) = Some s' → s' = s)
  ∧ (∀ s', final_state (Callback_eq_at (Exn:=Exn) x y s) = Some s' → s' = s)
  ∧ (∀ s', final_state (Callback_ne_at (Exn:=Exn) x y s) = Some s' → s' = s)
  ∧ (∀ s', final_state (call_at x args s) = Some s' →
       callbacks s' = callbacks s)
  ∧ (∀ s', final_state (Callback_assign (Exn:=Exn) x d s) = Some s' →
       callbacks s' !! x = Some d ∧ world s' = world s ∧ trace s' = trace s).
Proof.
  unfold IsSet_at, Callback_bool_at, Callback_eq_at, Callback_ne_at,
    Callback_call_at, Callback_assign, bind, load, store, ret.
  split; [|split; [|split; [|split; [|split]]]]; intros s'.
  - destruct (callbacks s !! x); cbn; congruence.
  - destruct (callbacks s !! x); cbn; congruence.
  - destruct (callbacks s !! x), (callbacks s !! y); cbn; congruence.
  - destruct (callbacks s !! x), (callbacks s !! y); cbn; congruence.
  - destruct (callbacks s !! x) as [c|]; [|discriminate].
    apply call_callbacks.
  - cbn. intros [= <-]. cbn. rewrite lookup_insert_eq.
    destruct d; repeat split; reflexivity.
Qed.

(** ** Further properties of the class and its helpers *)

(** X1. The constructor taking only a functor leaves the context null.
    The callback it makes is set exactly when the functor is not null,
    equals a default-constructed one exactly when the functor is null,
    and its invocation is the functor called with a null context. *)
Theorem Callback_of_functor_exact (fn : Functor MemFn ConstMemFn UserFn)
    args s :
  context (Callback_of_functor fn) = nullptr
  ∧ (IsSet (Callback_of_functor fn) = true ↔ fn ≠ Functor_null)
  ∧ (Callback_eq (Callback_of_functor fn) Callback_default = true
       ↔ fn = Functor_null)
  ∧ call (Callback_of_functor fn) args s
    = if decide (fn = Functor_null) then Returns R_default s
      else call_functor prog fn nullptr args s.
Proof.
  split; [reflexivity|]. split; [apply IsSet_true|]. split.
  - rewrite Callback_eq_true. unfold Callback_of_functor, Callback_default.
    split; [intros [= ->]|intros ->]; reflexivity.
  - destruct (decide (fn = Functor_null)) as [->|Hfn].
    + apply call_unset. reflexivity.
    + apply call_set, IsSet_true. exact Hfn.
Qed.

(** X2. [operator==] is reflexive, symmetric and transitive, and
    [operator!=] is irreflexive and symmetric. *)
Theorem Callback_eq_equivalence (a b c : Callback) :
  Callback_eq a a = true
  ∧ Callback_eq a b = Callback_eq b a
  ∧ (Callback_eq a b = true → Callback_eq b c = true → Callback_eq a c = true)
  ∧ Callback_ne a a = false
  ∧ Callback_ne a b = Callback_ne b a.
Proof.
  assert (Hrefl : ∀ x : Callback, Callback_eq x x = true).
  { intros x. apply Callback_eq_true. reflexivity. }
  assert (Hsym : ∀ x y : Callback, Callback_eq x y = Callback_eq y x).
  { intros x y. destruct (Callback_eq x y) eqn:E; symmetry.
    - apply Callback_eq_true in E. subst y. apply Hrefl.
    - apply Callback_eq_false. apply Callback_eq_false in E. congruence. }
  split; [apply Hrefl|]. split; [apply Hsym|]. split.
  - rewrite !Callback_eq_true. congruence.
  - unfold Callback_ne. rewrite Hrefl, (Hsym a b). split; reflexivity.
Qed.

(** X3. Two callbacks that compare equal can stand for one another:
    they agree on [IsSet] and on the conversion to [bool], compare
    alike to any third callback, and their invocations have the same
    outcome. *)
Theorem Callback_eq_interchangeable (a b : Callback) args s :
  Callback_eq a b = true →
  IsSet a = IsSet b
  ∧ Callback_bool a = Callback_bool b
  ∧ (∀ c, Callback_eq a c = Callback_eq b c)
  ∧ call a args s = call b args s.
Proof.
  intros Heq. apply Callback_eq_true in Heq. subst b.
  repeat split; reflexivity.
Qed.

(** X4. Two callbacks made by [util::Function] are equal exactly when
    they were made from the same function pointer. *)
Theorem Function_eq_iff (f g : FunctionPtr) :
  Callback_eq (Function f : Callback) (Function g) = true ↔ f = g.
Proof.
  rewrite Callback_eq_true. unfold Function, reinterpret_cast_void.
  split; [intros [= ->]|intros ->]; reflexivity.
Qed.

(** X5. Two callbacks made by [util::Bind] are equal exactly when they
    bind the same member to the same object; this holds for the
    non-const and for the const overload. *)
Theorem Bind_eq_iff (F F' : MemFn) (o o' : Ptr)
    (C C' : ConstMemFn) (p p' : ConstPtr) :
  (Callback_eq (Bind F o : Callback) (Bind F' o') = true ↔ F = F' ∧ o = o')
  ∧ (Callback_eq (Bind_const C p : Callback) (Bind_const C' p') = true
       ↔ C = C' ∧ p = p').
Proof.
  rewrite !Callback_eq_true. destruct o, o', p, p'. cbn. split.
  - split; [intros [= -> ->]|intros [-> [= ->]]]; done.
  - split; [intros [= -> ->]|intros [-> [= ->]]]; done.
Qed.

(** X6. Callbacks made by different helpers are never equal, not even
    when the function pointer and the objects' addresses coincide: the
    lambdas of [util::Function] and of the two [_BindHelper] overloads
    are different functions. *)
Theorem helpers_distinct (f : FunctionPtr) (F : MemFn) (o : Ptr)
    (C : ConstMemFn) (p : ConstPtr) :
  Callback_eq (Function f : Callback) (Bind F o) = false
  ∧ Callback_eq (Function f : Callback) (Bind_const C p) = false
  ∧ Callback_eq (Bind F o : Callback) (Bind_const C p) = false.
Proof.
  repeat split; apply Callback_eq_false; discriminate.
Qed.

(** X7. The invocation of a callback made by [util::Function] has no
    defined behaviour exactly when the function pointer is null, or
    leads to no function, or the function's own body has none. *)
Theorem Function_call_undefined_iff (f : FunctionPtr) args s :
  call (Function f) args s = Undefined
  ↔ f = nullptr ∨ functions prog f = None
    ∨ ∃ body, functions prog f = Some body ∧ body args (world s) = Undefined.
Proof.
  rewrite call_Function. unfold call_function.
  destruct (decide (f = nullptr)) as [Hf|Hf]; [tauto|].
  destruct (functions prog f) as [body|] eqn:Hbody; [|tauto].
  cbn [enter world]. split.
  - intros H. right; right. exists body. split; [reflexivity|].
    destruct (body args (world s)); [discriminate..|reflexivity].
  - intros [?|[?|(body' & [= <-] & ->)]]; [done..|reflexivity].
Qed.

(** X8. A callback made by [util::Bind] is always set, whatever the
    object; its invocation has no defined behaviour exactly when the
    object's address is null, or no object lives there, or the member's
    own body has none.  This holds for both overloads. *)
Theorem Bind_call_undefined_iff (F : MemFn) (item : Ptr)
    (C : ConstMemFn) (p : ConstPtr) args s :
  IsSet (Bind F item : Callback) = true
  ∧ IsSet (Bind_const C p : Callback) = true
  ∧ (call (Bind F item) args s = Undefined
       ↔ ptr_addr item = nullptr
         ∨ objects (world s) !! ptr_addr item = None
         ∨ ∃ o, objects (world s) !! ptr_addr item = Some o
                ∧ members prog F args o (globals (world s)) = Undefined)
  ∧ (call (Bind_const C p) args s = Undefined
       ↔ const_ptr_addr p = nullptr
         ∨ objects (world s) !! const_ptr_addr p = None
         ∨ ∃ o, objects (world s) !! const_ptr_addr p = Some o
                ∧ const_members prog C args o (globals (world s)) = Undefined).
Proof.
  split; [apply IsSet_Bind|]. split; [apply IsSet_Bind_const|]. split.
  - rewrite call_Bind. unfold call_member.
    destruct (decide (ptr_addr item = nullptr)) as [Hi|Hi]; [tauto|].
    destruct (objects (world s) !! ptr_addr item) as [o|] eqn:Ho; [|tauto].
    split.
    + intros H. right; right. exists o. split; [reflexivity|].
      destruct (members prog F args o _) as [r [o' g']|e [o' g']|];
        [discriminate..|reflexivity].
    + intros [?|[?|(o1 & [= <-] & ->)]]; [done..|reflexivity].
  - rewrite call_Bind_const. unfold call_const_member.
    destruct (decide (const_ptr_addr p = nullptr)) as [Hi|Hi]; [tauto|].
    destruct (objects (world s) !! const_ptr_addr p) as [o|] eqn:Ho; [|tauto].
    split.
    + intros H. right; right. exists o. split; [reflexivity|].
      destruct (const_members prog C args o _); [discriminate..|reflexivity].
    + intros [?|[?|(o1 & [= <-] & ->)]]; [done..|reflexivity].
Qed.

(** X9. Every unset callback, whatever its context, returns [R{}] in
    the state it was invoked in.  So an invocation that throws, or that
    has no defined behaviour, comes from a set callback, and it is the
    trampoline that threw or was undefined. *)
Theorem call_failure_from_target this args s :
  (functor this = Functor_null → call this args s = Returns R_default s)
  ∧ (∀ e s', call this args s = Throws e s' →
       IsSet this = true
       ∧ call_functor prog (functor this) (context this) args s = Throws e s')
  ∧ (call this args s = Undefined →
       IsSet this = true
       ∧ call_functor prog (functor this) (context this) args s = Undefined).
Proof.
  split; [intros H; apply call_unset, IsSet_false; exact H|].
  destruct (IsSet this) eqn:Hset.
  - rewrite call_set by exact Hset. split; [intros e s' H|intros H]; done.
  - rewrite call_unset by exact Hset. split; [intros e s' H|intros H]; done.
Qed.

(** X10. An invocation that ends enters exactly the target its pair
    names, once, with the context and the arguments as they are, and
    enters nothing when the callback is unset. *)
Theorem call_enters_one_target this args s s' :
  final_state (call this args s) = Some s' →
  trace s' = trace s ++
    match functor this with
    | Functor_null => []
    | Functor_Function => [EvFunction (context this) args]
    | Functor_Bind F => [EvMember F (context this) args]
    | Functor_Bind_const F => [EvConstMember F (context this) args]
    | Functor_user u => [EvUser u (context this) args]
    end.
Proof.
  destruct this as [ctx [| |F|F|u]].
  - rewrite call_unset by reflexivity. cbn. intros [= <-].
    symmetry. apply app_nil_r.
  - rewrite call_set by reflexivity. cbn.
    unfold Function_lambda, call_function, reinterpret_cast_function.
    destruct (decide _); [discriminate|].
    destruct (functions prog _) as [body|]; [|discriminate].
    destruct (body _ _); cbn; intros [= <-]; reflexivity.
  - rewrite call_set by reflexivity. cbn.
    unfold _BindHelper_lambda, call_member.
    destruct (decide _); [discriminate|].
    destruct (objects _ !! _) as [o|]; [|discriminate].
    destruct (members _ _ _ _ _) as [r [o' g']|e [o' g']|]; cbn;
      intros [= <-]; reflexivity.
  - rewrite call_set by reflexivity. cbn.
    unfold _BindHelper_const_lambda, call_const_member.
    destruct (decide _); [discriminate|].
    destruct (objects _ !! _) as [o|]; [|discriminate].
    destruct (const_members _ _ _ _ _); cbn; intros [= <-]; reflexivity.
  - rewrite call_set by reflexivity. cbn. unfold call_user.
    destruct (user_functors _ _ _ _ _); cbn; intros [= <-]; reflexivity.
Qed.

(** X11. Callbacks bound to one object share it.  After an invocation
    of a non-const member through one callback has returned, a const
    member and a non-const member invoked through other callbacks bound
    to the same object work on the value the first invocation left. *)
Theorem bound_callbacks_share_object (F F2 : MemFn) (C : ConstMemFn)
    (a : addr) (o o' : T) (r : R) (g' : G) args args2 s :
  a ≠ nullptr →
  objects (world s) !! a = Some o →
  members prog F args o (globals (world s)) = Returns r (o', g') →
  returned ((let* _ := call (Bind F (ptr a)) args in
             call (Bind_const C (const_ptr a)) args2) s)
    = returned (const_members prog C args2 o' g')
  ∧ returned ((let* _ := call (Bind F (ptr a)) args in
               call (Bind F2 (ptr a)) args2) s)
    = returned (members prog F2 args2 o' g').
Proof.
  intros Ha Ho Hm. unfold bind.
  rewrite call_Bind. unfold call_member at 1 2. cbn [ptr_addr].
  rewrite decide_False by exact Ha. rewrite Ho, Hm.
  rewrite call_Bind_const, call_Bind.
  unfold call_const_member, call_member. cbn.
  rewrite !decide_False by exact Ha. rewrite !lookup_insert_eq.
  split.
  - destruct (const_members prog C args2 o' g'); reflexivity.
  - destruct (members prog F2 args2 o' g') as [r2 [o2 g2]|e2 [o2 g2]|];
      reflexivity.
Qed.

(** X13. What is assigned to a callback variable is what the variable
    is from then on: [IsSet] and the invocation read the pair assigned,
    a later assignment replaces an earlier one, and assigning a
    default-constructed callback makes the invocation return [R{}]
    without entering anything. *)
Theorem assign_then_use (x : addr) (c d : Callback) args s :
  let s1 := set_callbacks (<[x := d]> (callbacks s)) s in
  (let* _ := Callback_assign (Exn:=Exn) x d in IsSet_at x) s
    = Returns (IsSet d) s1
  ∧ (let* _ := Callback_assign x d in call_at x args) s = call d args s1
  ∧ (let* _ := Callback_assign (Exn:=Exn) x c in Callback_assign x d) s
    = Callback_assign x d s
  ∧ (let* _ := Callback_assign x Callback_default in call_at x args) s
    = Returns R_default
        (set_callbacks (<[x := Callback_default]> (callbacks s)) s).
Proof.
  intros s1.
  assert (Hassign : ∀ e : Callback,
            Callback_assign (Exn:=Exn) x e s
            = Returns tt (set_callbacks (<[x := e]> (callbacks s)) s)).
  { intros [ctx fn]. reflexivity. }
  unfold bind. rewrite !Hassign. split; [|split; [|split]].
  - unfold IsSet_at, bind, load, ret. cbn. rewrite lookup_insert_eq. reflexivity.
  - apply call_at_lookup. cbn. apply lookup_insert_eq.
  - destruct d as [ctx fn]. unfold Callback_assign, store, set_callbacks. cbn.
    rewrite insert_insert_eq. reflexivity.
  - rewrite (call_at_lookup x Callback_default)
      by (cbn; apply lookup_insert_eq).
    apply call_unset. reflexivity.
Qed.

(** X14. Assigning a callback variable to itself changes nothing. *)
Theorem self_assign_noop (x : addr) (c : Callback) s :
  callbacks s !! x = Some c →
  (let* e := load (Exn:=Exn) x in Callback_assign x e) s = Returns tt s.
Proof.
  intros Hx. unfold bind, load. rewrite Hx.
  destruct c as [ctx fn]. unfold Callback_assign, store, set_callbacks. cbn.
  rewrite insert_id by exact Hx. destruct s; reflexivity.
Qed.

(** X15. A variable copy-constructed from another compares equal to it
    under [operator==], not unequal under [operator!=], and is set
    exactly when the original is. *)
Theorem copy_compares_equal (a b : addr) (c : Callback) s :
  callbacks s !! a = Some c →
  let s1 := set_callbacks (<[b := c]> (callbacks s)) s in
  Callback_eq (Callback_copy c) c = true
  ∧ (let* _ := Callback_copy_at (Exn:=Exn) b a in Callback_eq_at a b) s
    = Returns true s1
  ∧ (let* _ := Callback_copy_at (Exn:=Exn) b a in Callback_ne_at a b) s
    = Returns false s1
  ∧ (let* _ := Callback_copy_at (Exn:=Exn) b a in IsSet_at b) s
    = Returns (IsSet c) s1.
Proof.
  intros Ha s1.
  assert (Hc : Callback_copy c = c) by (destruct c; reflexivity).
  assert (Hself : Callback_eq c c = true) by (apply Callback_eq_true; reflexivity).
  assert (Hcopy : Callback_copy_at (Exn:=Exn) b a s = Returns tt s1).
  { unfold Callback_copy_at, bind, load. rewrite Ha, Hc. reflexivity. }
  assert (H1a : callbacks s1 !! a = Some c).
  { cbn. destruct (decide (b = a)) as [->|Hne].
    - apply lookup_insert_eq.
    - rewrite lookup_insert_ne by exact Hne. exact Ha. }
  assert (H1b : callbacks s1 !! b = Some c) by (cbn; apply lookup_insert_eq).
  split; [rewrite Hc; exact Hself|].
  unfold bind. rewrite !Hcopy.
  unfold Callback_eq_at, Callback_ne_at, IsSet_at, bind, load, ret.
  rewrite H1a, H1b. unfold Callback_ne. rewrite Hself.
  repeat split; reflexivity.
Qed.

End Properties.

(** ** The two programs, run *)

(** [f(5)] through a callback is [true], [f(-1)] is [false], and the
    default-constructed callback gives [false]. *)
Example positive_scenario :
  returned (Positive.call (Function Positive.f) 5%Z Positive.start) = Some true
  ∧ returned (Positive.call (Function Positive.f) (-1)%Z Positive.start) = Some false
  ∧ Positive.call Callback_default 5%Z Positive.start = Returns false Positive.start.
Proof. repeat split. Qed.

(** Three invocations of [increment] bound to a counter at zero return
    one, two and three, and leave the counter itself at three; the other
    counter stays at ten. *)
Example counter_scenario :
  let o := Counter.thrice (Bind Counter.increment Counter.counter) Counter.start in
  returned o = Some (1, 2, 3)%Z
  ∧ (λ s, objects (world s) !! 8192%Z) <$> final_state o = Some (Some 3%Z)
  ∧ (λ s, objects (world s) !! 8196%Z) <$> final_state o = Some (Some 10%Z)
  ∧ (λ s, length (trace s)) <$> final_state o = Some 3.
Proof. vm_compute. repeat split. Qed.

(** A callback made from a null function pointer is set, and invoking it
    has no defined behaviour. *)
Example null_function_scenario :
  IsSet (Function nullptr : Positive.Callback) = true
  ∧ Positive.call (Function nullptr) 5%Z Positive.start = Undefined.
Proof. repeat split. Qed.

(** C6 fails as stated: a callback built by hand from a context that is
    not null and a null functor is unset, as the default-constructed one
    is, and the two are unequal. *)
Lemma unset_callbacks_unequal :
  let a : Positive.Callback := Callback_new 1%Z Functor_null in
  let b : Positive.Callback := Callback_default in
  IsSet a = false ∧ IsSet b = false
  ∧ Callback_eq a b = false ∧ Callback_ne a b = true.
Proof. repeat split. Qed.


(** C4 fails as stated: invoked with an lvalue through a callback bound
    to [add], a parcel is copied twice, once by the invocation and once
    more by the lambda of the helper. *)
Lemma Bind_call_copies_twice :
  let p := {| Parcel.weight := 7 |} in
  let this : Parcel.Callback := Bind Parcel.add Parcel.scale in
  let invoked := Parcel.call this lvalue p Parcel.start in
  IsSet this = true
  ∧ copies Parcel.start = 0
  ∧ copies <$> final_state invoked = Some 2
  ∧ ¬ (∀ n, copies <$> final_state invoked = Some n
            → n ≤ copies Parcel.start + 1).
Proof.
  repeat split. intros H. specialize (H 2 eq_refl). cbn in H. lia.
Qed.

(** ** The theorems at concrete inputs *)


(** C4 on [Parcel]: [add] bound to the scale, invoked with an lvalue. *)
Lemma set_call_counted_exact_witness :
  (Functor_Bind Parcel.add
     : Functor Parcel.MemFn Parcel.ConstMemFn Parcel.UserFn) ≠ Functor_null
  ∧ Parcel.call (Bind Parcel.add Parcel.scale) lvalue {| Parcel.weight := 7 |}
      Parcel.start
    = call_member_counted Parcel.prog true Parcel.add Parcel.scale lvalue
        {| Parcel.weight := 7 |} (init_params true lvalue Parcel.start)
  ∧ returned (Parcel.call (Bind Parcel.add Parcel.scale) lvalue
                {| Parcel.weight := 7 |} Parcel.start) = Some 7%Z
  ∧ copies <$> final_state (Parcel.call (Bind Parcel.add Parcel.scale) lvalue
                              {| Parcel.weight := 7 |} Parcel.start)
    = Some 2.
Proof.
  assert (H1 : (Functor_Bind Parcel.add
     : Functor Parcel.MemFn Parcel.ConstMemFn Parcel.UserFn) ≠ Functor_null)
    by discriminate.
  split; [exact H1|].
  destruct (set_call_counted_exact 0%Z Parcel.prog true 16384%Z
              (Functor_Bind Parcel.add) lvalue {| Parcel.weight := 7 |}
              Parcel.start H1) as (_ & _ & _ & _ & _ & _ & Hl & Hc & _).
  split; [exact Hl|]. split; [reflexivity|]. exact Hc.
Defined.

(** C2 on [Counter]: [increment] bound to the counter at zero. *)
Lemma Bind_call_exact_witness :
  ptr_addr Counter.counter ≠ nullptr
  ∧ objects (world Counter.start) !! ptr_addr Counter.counter = Some 0%Z
  ∧ returned (Counter.call (Bind Counter.increment Counter.counter) Counter.start)
    = Some 1%Z
  ∧ (λ s, objects (world s) !! ptr_addr Counter.counter)
      <$> final_state (Counter.call (Bind Counter.increment Counter.counter)
                         Counter.start)
    = Some (Some 1%Z).
Proof.
  assert (H1 : ptr_addr Counter.counter ≠ nullptr) by discriminate.
  assert (H2 : objects (world Counter.start) !! ptr_addr Counter.counter
               = Some 0%Z) by reflexivity.
  split; [exact H1|]. split; [exact H2|].
  destruct (Bind_call_exact 0%Z Counter.prog Counter.increment Counter.counter
              0%Z tt Counter.start H1 H2) as (_ & Hr & _ & Ho & _).
  split; [exact Hr | exact Ho].
Defined.

(** C5 on [Positive]: two trampolines with one body, compared. *)
Lemma Callback_eq_structural_witness :
  Positive.has_context ≠ Positive.has_context'
  ∧ user_functors Positive.prog Positive.has_context
    = user_functors Positive.prog Positive.has_context'
  ∧ Callback_eq
      (Callback_new 7%Z (Functor_user Positive.has_context) : Positive.Callback)
      (Callback_new 7%Z (Functor_user Positive.has_context')) = false.
Proof.
  assert (H1 : Positive.has_context ≠ Positive.has_context') by discriminate.
  assert (H2 : user_functors Positive.prog Positive.has_context
               = user_functors Positive.prog Positive.has_context')
    by reflexivity.
  split; [exact H1|]. split; [exact H2|].
  destruct (Callback_eq_structural Positive.prog
              (Callback_default : Positive.Callback) Callback_default)
    as (_ & _ & Hu).
  exact (Hu Positive.has_context Positive.has_context' 7%Z H1 H2).
Defined.

(** C6 on [Counter]: two counters bound, a set callback against the
    default one, and an unset callback with a null context. *)
Lemma Callback_eq_cases_witness :
  Counter.counter ≠ Counter.other_counter
  ∧ Callback_eq (Bind Counter.increment Counter.counter : Counter.Callback)
      (Bind Counter.increment Counter.other_counter) = false
  ∧ IsSet (Bind Counter.increment Counter.counter : Counter.Callback) = true
  ∧ Callback_eq (Bind Counter.increment Counter.counter : Counter.Callback)
      Callback_default = false
  ∧ IsSet (Callback_new 0%Z Functor_null : Counter.Callback) = false
  ∧ Callback_eq (Callback_new 0%Z Functor_null : Counter.Callback)
      Callback_default = true
  ∧ IsSet (Callback_new 1%Z Functor_null : Counter.Callback) = false
  ∧ IsSet (Callback_new 2%Z Functor_null : Counter.Callback) = false
  ∧ context (Callback_new 1%Z Functor_null : Counter.Callback)
    ≠ context (Callback_new 2%Z Functor_null : Counter.Callback)
  ∧ Callback_eq (Callback_new 1%Z Functor_null : Counter.Callback)
      (Callback_new 2%Z Functor_null) = false.
Proof.
  assert (H1 : Counter.counter ≠ Counter.other_counter) by discriminate.
  assert (H2 : IsSet (Bind Counter.increment Counter.counter : Counter.Callback)
               = true) by reflexivity.
  assert (H3 : IsSet (Callback_new 0%Z Functor_null : Counter.Callback) = false)
    by reflexivity.
  assert (H4 : IsSet (Callback_new 1%Z Functor_null : Counter.Callback) = false)
    by reflexivity.
  assert (H5 : IsSet (Callback_new 2%Z Functor_null : Counter.Callback) = false)
    by reflexivity.
  assert (H6 : context (Callback_new 1%Z Functor_null : Counter.Callback)
               ≠ context (Callback_new 2%Z Functor_null : Counter.Callback))
    by discriminate.
  destruct (Callback_eq_cases (MemFn:=Counter.MemFn)
              (ConstMemFn:=Counter.ConstMemFn) (UserFn:=Counter.UserFn))
    as (_ & Hbind & _ & Hset & _ & Hunset & _ & Hdiffer).
  split; [exact H1|].
  split; [exact (Hbind Counter.increment _ _ H1)|].
  split; [exact H2|].
  split; [exact (proj1 (Hset _ H2))|].
  split; [exact H3|].
  split; [exact (proj2 (Hunset _ H3) eq_refl)|].
  split; [exact H4|]. split; [exact H5|]. split; [exact H6|].
  exact (Hdiffer _ _ H4 H5 H6).
Defined.

(** C7 on [Counter]: [get] bound to the counter at zero. *)
Lemma Bind_const_call_exact_witness :
  const_ptr_addr (const_ptr 8192) ≠ nullptr
  ∧ objects (world Counter.start) !! const_ptr_addr (const_ptr 8192) = Some 0%Z
  ∧ returned (Counter.call (Bind_const Counter.get (const_ptr 8192)) Counter.start)
    = Some 0%Z
  ∧ (λ s, objects (world s))
      <$> final_state (Counter.call (Bind_const Counter.get (const_ptr 8192))
                         Counter.start)
    = Some (objects (world Counter.start)).
Proof.
  assert (H1 : const_ptr_addr (const_ptr 8192) ≠ nullptr) by discriminate.
  assert (H2 : objects (world Counter.start) !! const_ptr_addr (const_ptr 8192)
               = Some 0%Z) by reflexivity.
  split; [exact H1|]. split; [exact H2|].
  destruct (Bind_const_call_exact 0%Z Counter.prog Counter.get (const_ptr 8192)
              0%Z tt Counter.start H1 H2)
    as (_ & _ & _ & _ & Hr & _ & Ho & _).
  split; [exact Hr | exact Ho].
Defined.

(** C9 on [Positive]: the variable at 16 copied to 24, then cleared. *)
Lemma copy_then_assign_witness :
  (16 ≠ 24)%Z
  ∧ callbacks Positive.start !! 16%Z = Some (Function Positive.f)
  ∧ ∃ s1 s2,
      Callback_copy_at (Exn:=Empty_set) 24%Z 16%Z Positive.start = Returns tt s1
      ∧ Callback_assign (Exn:=Empty_set) 16%Z Callback_default s1 = Returns tt s2
      ∧ callbacks s2 !! 16%Z = Some Callback_default
      ∧ callbacks s2 !! 24%Z = Some (Function Positive.f)
      ∧ returned (Callback_call_at false Positive.prog 24%Z 5%Z s2) = Some true.
Proof.
  assert (H1 : (16 ≠ 24)%Z) by discriminate.
  assert (H2 : callbacks Positive.start !! 16%Z = Some (Function Positive.f))
    by reflexivity.
  split; [exact H1|]. split; [exact H2|].
  destruct (copy_then_assign false Positive.prog 16%Z 24%Z
              (Function Positive.f) Callback_default 5%Z Positive.start H1 H2)
    as (_ & Hcopy & _ & _ & _ & Hassign & Hb & Hcall & _).
  eexists _, _. split; [exact Hcopy|]. split; [exact Hassign|].
  split; [reflexivity|]. split; [exact Hb|].
  rewrite Hcall. reflexivity.
Defined.

(** C10 on [Positive]: the variable at 16 invoked with 5. *)
Lemma observers_keep_fields_witness :
  ∃ s', final_state (Callback_call_at false Positive.prog 16%Z 5%Z Positive.start)
        = Some s'
        ∧ trace s' = [EvFunction Positive.f 5%Z]
        ∧ callbacks s' = callbacks Positive.start.
Proof.
  eexists. split; [reflexivity|]. split; [reflexivity|].
  destruct (observers_keep_fields false Positive.prog 16%Z 16%Z
              Callback_default 5%Z Positive.start)
    as (_ & _ & _ & _ & Hcall & _).
  apply Hcall. reflexivity.
Defined.

(** X1 on [Positive]: the trampoline [has_context] given no context. *)
Lemma Callback_of_functor_exact_witness :
  (Functor_user Positive.has_context
     : Functor Positive.MemFn Positive.ConstMemFn Positive.UserFn) ≠ Functor_null
  ∧ IsSet (Callback_of_functor (Functor_user Positive.has_context)
             : Positive.Callback) = true
  ∧ returned (Positive.call
                (Callback_of_functor (Functor_user Positive.has_context))
                3%Z Positive.start) = Some false.
Proof.
  assert (H1 : (Functor_user Positive.has_context
     : Functor Positive.MemFn Positive.ConstMemFn Positive.UserFn) ≠ Functor_null)
    by discriminate.
  destruct (Callback_of_functor_exact false Positive.prog
              (Functor_user Positive.has_context) 3%Z Positive.start)
    as (_ & Hset & _ & Hcall).
  split; [exact H1|]. split; [exact (proj2 Hset H1)|].
  unfold Positive.call. rewrite Hcall. reflexivity.
Defined.

(** X2 on [Positive]: three callbacks made from [f]. *)
Lemma Callback_eq_equivalence_witness :
  Callback_eq (Function Positive.f : Positive.Callback)
    (Callback_new 4096%Z Functor_Function) = true
  ∧ Callback_eq (Callback_new 4096%Z Functor_Function : Positive.Callback)
      (Callback_copy (Function Positive.f)) = true
  ∧ Callback_eq (Function Positive.f : Positive.Callback)
      (Callback_copy (Function Positive.f)) = true.
Proof.
  assert (H1 : Callback_eq (Function Positive.f : Positive.Callback)
                 (Callback_new 4096%Z Functor_Function) = true) by reflexivity.
  assert (H2 : Callback_eq
                 (Callback_new 4096%Z Functor_Function : Positive.Callback)
                 (Callback_copy (Function Positive.f)) = true) by reflexivity.
  split; [exact H1|]. split; [exact H2|].
  destruct (Callback_eq_equivalence (Function Positive.f : Positive.Callback)
              (Callback_new 4096%Z Functor_Function)
              (Callback_copy (Function Positive.f)))
    as (_ & _ & Htrans & _).
  exact (Htrans H1 H2).
Defined.

(** X3 on [Positive]: a callback made from [f] and one built by hand
    from the same pair. *)
Lemma Callback_eq_interchangeable_witness :
  Callback_eq (Function Positive.f : Positive.Callback)
    (Callback_new 4096%Z Functor_Function) = true
  ∧ Positive.call (Function Positive.f) 5%Z Positive.start
    = Positive.call (Callback_new 4096%Z Functor_Function) 5%Z Positive.start.
Proof.
  assert (H1 : Callback_eq (Function Positive.f : Positive.Callback)
                 (Callback_new 4096%Z Functor_Function) = true) by reflexivity.
  split; [exact H1|].
  destruct (Callback_eq_interchangeable false Positive.prog
              (Function Positive.f) (Callback_new 4096%Z Functor_Function)
              5%Z Positive.start H1) as (_ & _ & _ & Hcall).
  exact Hcall.
Defined.

(** X4 on [Positive]: [f] against itself and against another address. *)
Lemma Function_eq_iff_witness :
  Callback_eq (Function Positive.f : Positive.Callback) (Function Positive.f)
  = true
  ∧ (4096 ≠ 4100)%Z
  ∧ Callback_eq (Function 4096%Z : Positive.Callback) (Function 4100%Z) ≠ true.
Proof.
  split; [exact (proj2 (Function_eq_iff (MemFn:=Positive.MemFn)
                          (ConstMemFn:=Positive.ConstMemFn)
                          (UserFn:=Positive.UserFn) Positive.f Positive.f)
                   eq_refl)|].
  assert (H1 : (4096 ≠ 4100)%Z) by discriminate.
  split; [exact H1|].
  intros Heq. apply H1.
  exact (proj1 (Function_eq_iff (MemFn:=Positive.MemFn)
                  (ConstMemFn:=Positive.ConstMemFn)
                  (UserFn:=Positive.UserFn) 4096%Z 4100%Z) Heq).
Defined.

(** X5 on [Counter]: [increment] bound twice to the same counter. *)
Lemma Bind_eq_iff_witness :
  Callback_eq (Bind Counter.increment Counter.counter : Counter.Callback)
    (Bind Counter.increment (ptr 8192)) = true
  ∧ Callback_eq (Bind_const Counter.get (const_ptr 8192) : Counter.Callback)
      (Bind_const Counter.get (const_ptr 8192)) = true.
Proof.
  destruct (Bind_eq_iff (UserFn:=Counter.UserFn)
              Counter.increment Counter.increment Counter.counter (ptr 8192)
              Counter.get Counter.get (const_ptr 8192) (const_ptr 8192))
    as (Hbind & Hconst).
  split; [exact (proj2 Hbind (conj eq_refl eq_refl))
         |exact (proj2 Hconst (conj eq_refl eq_refl))].
Defined.

(** X7 on [Positive]: a null function pointer and a dangling one. *)
Lemma Function_call_undefined_iff_witness :
  Positive.call (Function nullptr) 5%Z Positive.start = Undefined
  ∧ functions Positive.prog 4100%Z = None
  ∧ Positive.call (Function 4100%Z) 5%Z Positive.start = Undefined.
Proof.
  split; [exact (proj2 (Function_call_undefined_iff false Positive.prog
                          nullptr 5%Z Positive.start) (or_introl eq_refl))|].
  assert (H1 : functions Positive.prog 4100%Z = None) by reflexivity.
  split; [exact H1|].
  exact (proj2 (Function_call_undefined_iff false Positive.prog
                  4100%Z 5%Z Positive.start) (or_intror (or_introl H1))).
Defined.

(** X8 on [Counter]: [increment] bound where no counter lives, and [get]
    bound to a null address. *)
Lemma Bind_call_undefined_iff_witness :
  objects (world Counter.start) !! ptr_addr (ptr 8200) = None
  ∧ Counter.call (Bind Counter.increment (ptr 8200)) Counter.start = Undefined
  ∧ const_ptr_addr (const_ptr 0) = nullptr
  ∧ Counter.call (Bind_const Counter.get (const_ptr 0)) Counter.start
    = Undefined.
Proof.
  assert (H1 : objects (world Counter.start) !! ptr_addr (ptr 8200) = None)
    by reflexivity.
  assert (H2 : const_ptr_addr (const_ptr 0) = nullptr) by reflexivity.
  destruct (Bind_call_undefined_iff 0%Z Counter.prog Counter.increment
              (ptr 8200) Counter.get (const_ptr 0) tt Counter.start)
    as (_ & _ & Hbind & Hconst).
  split; [exact H1|].
  split; [exact (proj2 Hbind (or_intror (or_introl H1)))|].
  split; [exact H2|].
  exact (proj2 Hconst (or_introl H2)).
Defined.

(** X9 on [Positive]: an unset callback with a context that is not null. *)
Lemma call_failure_from_target_witness :
  functor (Callback_new 1%Z Functor_null : Positive.Callback) = Functor_null
  ∧ Positive.call (Callback_new 1%Z Functor_null) 5%Z Positive.start
    = Returns false Positive.start.
Proof.
  assert (H1 : functor (Callback_new 1%Z Functor_null : Positive.Callback)
               = Functor_null) by reflexivity.
  split; [exact H1|].
  destruct (call_failure_from_target false Positive.prog
              (Callback_new 1%Z Functor_null) 5%Z Positive.start)
    as (Hunset & _).
  exact (Hunset H1).
Defined.

(** X10 on [Positive]: [f] invoked with 5. *)
Lemma call_enters_one_target_witness :
  ∃ s', final_state (Positive.call (Function Positive.f) 5%Z Positive.start)
        = Some s'
        ∧ trace s' = trace Positive.start ++ [EvFunction Positive.f 5%Z].
Proof.
  eexists. split; [reflexivity|].
  exact (call_enters_one_target false Positive.prog (Function Positive.f)
           5%Z Positive.start _ eq_refl).
Defined.

(** X11 on [Counter]: [increment], then [get] and [increment] again, all
    bound to the counter at zero. *)
Lemma bound_callbacks_share_object_witness :
  (8192 ≠ nullptr)%Z
  ∧ objects (world Counter.start) !! 8192%Z = Some 0%Z
  ∧ members Counter.prog Counter.increment tt 0%Z
      (globals (world Counter.start)) = Returns 1%Z (1%Z, tt)
  ∧ returned ((let* _ := Counter.call (Bind Counter.increment (ptr 8192)) in
               Counter.call (Bind_const Counter.get (const_ptr 8192)))
                Counter.start) = Some 1%Z
  ∧ returned ((let* _ := Counter.call (Bind Counter.increment (ptr 8192)) in
               Counter.call (Bind Counter.increment (ptr 8192)))
                Counter.start) = Some 2%Z.
Proof.
  assert (H1 : (8192 ≠ nullptr)%Z) by discriminate.
  assert (H2 : objects (world Counter.start) !! 8192%Z = Some 0%Z)
    by reflexivity.
  assert (H3 : members Counter.prog Counter.increment tt 0%Z
                 (globals (world Counter.start)) = Returns 1%Z (1%Z, tt))
    by reflexivity.
  split; [exact H1|]. split; [exact H2|]. split; [exact H3|].
  exact (bound_callbacks_share_object 0%Z Counter.prog Counter.increment
           Counter.increment Counter.get 8192%Z 0%Z 1%Z 1%Z tt tt tt
           Counter.start H1 H2 H3).
Defined.

(** X14 on [Positive]: the variable at 16 assigned to itself. *)
Lemma self_assign_noop_witness :
  callbacks Positive.start !! 16%Z = Some (Function Positive.f)
  ∧ (let* e := load (Exn:=Empty_set) 16%Z in Callback_assign 16%Z e)
      Positive.start = Returns tt Positive.start.
Proof.
  assert (H1 : callbacks Positive.start !! 16%Z = Some (Function Positive.f))
    by reflexivity.
  split; [exact H1|].
  exact (self_assign_noop (Exn:=Empty_set) 16%Z (Function Positive.f)
           Positive.start H1).
Defined.

(** X15 on [Positive]: the variable at 16 copied to 24 and compared. *)
Lemma copy_compares_equal_witness :
  callbacks Positive.start !! 16%Z = Some (Function Positive.f)
  ∧ returned ((let* _ := Callback_copy_at (Exn:=Empty_set) 24%Z 16%Z in
               Callback_eq_at 16%Z 24%Z) Positive.start) = Some true.
Proof.
  assert (H1 : callbacks Positive.start !! 16%Z = Some (Function Positive.f))
    by reflexivity.
  split; [exact H1|].
  destruct (copy_compares_equal (Exn:=Empty_set) 16%Z 24%Z
              (Function Positive.f) Positive.start H1) as (_ & Heq & _).
  rewrite Heq. reflexivity.
Defined.
